(** * Agent control loop of the Weather and CLI agents (src/app.py, src/cli.py)

    Shallow embedding of the two agent scripts of the repository.  Both
    scripts keep a process-wide [message_history], call a language-model
    service, decode the reply with [json.loads], dispatch on its ["step"]
    field and feed tool observations back into the history.  They differ in
    the model call ([app.py] calls the client directly, [cli.py] goes
    through [safe_llm_call]), in their tool registries and in some prints. *)

From Stdlib Require Import String Ascii List ZArith Bool Lia.
Import ListNotations.
Open Scope string_scope.
Set Warnings "-register-all".

(** ** Python values produced by [json.loads]

    [JNull] is Python's [None] (JSON [null] decodes to it). *)
Inductive json : Type :=
| JNull
| JBool (b : bool)
| JNum (z : Z)
| JStr (s : string)
| JArr (l : list json)
| JObj (kvs : list (string * json)).

(** A decoded JSON object is a Python dict: a later duplicate key wins. *)
Fixpoint obj_get (kvs : list (string * json)) (k : string) : option json :=
  match kvs with
  | [] => None
  | (k', v) :: rest =>
      match obj_get rest k with
      | Some w => Some w
      | None => if String.eqb k k' then Some v else None
      end
  end.

(** ** String helpers (ASCII view of Python's [str] methods) *)

Definition char_code (c : ascii) : nat := nat_of_ascii c.

(** [str.isspace] on the ASCII range: 9..13 and 28..32. *)
Definition is_space (c : ascii) : bool :=
  let n := char_code c in
  (((9 <=? n) && (n <=? 13)) || ((28 <=? n) && (n <=? 32)))%nat.

Fixpoint lstrip (s : string) : string :=
  match s with
  | EmptyString => EmptyString
  | String c r => if is_space c then lstrip r else s
  end.

Definition rstrip (s : string) : string :=
  string_of_list_ascii (rev (list_ascii_of_string (lstrip
    (string_of_list_ascii (rev (list_ascii_of_string s)))))).

(** [str.strip()]. *)
Definition py_strip (s : string) : string := rstrip (lstrip s).

Definition lower_char (c : ascii) : ascii :=
  let n := char_code c in
  if ((65 <=? n) && (n <=? 90))%nat then ascii_of_nat (n + 32)%nat else c.

(** [str.lower()] on ASCII letters. *)
Fixpoint py_lower (s : string) : string :=
  match s with
  | EmptyString => EmptyString
  | String c r => String (lower_char c) (py_lower r)
  end.

(** Python's [needle in hay] for strings. *)
Fixpoint py_contains (needle hay : string) : bool :=
  String.prefix needle hay ||
  match hay with
  | EmptyString => false
  | String _ r => py_contains needle r
  end.

Definition digit_char (d : Z) : ascii := ascii_of_nat (48 + Z.to_nat d)%nat.

Fixpoint z_digits (fuel : nat) (z : Z) : string :=
  match fuel with
  | O => EmptyString
  | S f =>
      if (z <? 10)%Z then String (digit_char z) EmptyString
      else z_digits f (z / 10)%Z ++ String (digit_char (z mod 10)%Z) EmptyString
  end.

(** [str(z)] for an integer. *)
Definition z_to_str (z : Z) : string :=
  if (z <? 0)%Z then "-" ++ z_digits 64 (- z)%Z else z_digits 64 z.

(** The double quote, written through a helper because string literals
    below use a single quote in its place. *)
Definition dq : ascii := ascii_of_nat 34%nat.

(** [jq s] replaces every single quote of [s] by a double quote, so that
    JSON texts can be written as ['{'step': 'PLAN'}']-style literals. *)
Fixpoint jq (s : string) : string :=
  match s with
  | EmptyString => EmptyString
  | String c r =>
      String (if Ascii.eqb c (ascii_of_nat 39%nat) then dq else c) (jq r)
  end.

(** ** [json.dumps] (default separators [", "] and [": "])

    Strings are escaped as the [json] module does for ASCII text: quote,
    backslash and control characters.  The model's strings are byte
    strings, so the [\uXXXX] escaping of non-ASCII code points is not
    represented. *)
Definition hex_char (n : nat) : ascii :=
  (if n <? 10 then ascii_of_nat (48 + n) else ascii_of_nat (87 + n))%nat.

Fixpoint escape_str (s : string) : string :=
  match s with
  | EmptyString => EmptyString
  | String c r =>
      let n := char_code c in
      let rest := escape_str r in
      if (n =? 34)%nat then String "\" (String dq rest)
      else if (n =? 92)%nat then String "\" (String "\" rest)
      else if (n =? 10)%nat then String "\" (String "n" rest)
      else if (n =? 13)%nat then String "\" (String "r" rest)
      else if (n =? 9)%nat then String "\" (String "t" rest)
      else if (n =? 8)%nat then String "\" (String "b" rest)
      else if (n =? 12)%nat then String "\" (String "f" rest)
      else if (n <? 32)%nat then
        "\u00" ++ String (hex_char (n / 16)%nat) (String (hex_char (n mod 16)%nat) rest)
      else String c rest
  end.

Definition quote (s : string) : string :=
  String dq (escape_str s ++ String dq EmptyString).

Fixpoint join (sep : string) (l : list string) : string :=
  match l with
  | [] => EmptyString
  | [x] => x
  | x :: rest => x ++ sep ++ join sep rest
  end.

Fixpoint json_dumps (j : json) : string :=
  match j with
  | JNull => "null"
  | JBool true => "true"
  | JBool false => "false"
  | JNum z => z_to_str z
  | JStr s => quote s
  | JArr l => "[" ++ join ", " (map json_dumps l) ++ "]"
  | JObj kvs =>
      "{" ++ join ", " (map (fun kv => quote (fst kv) ++ ": " ++ json_dumps (snd kv)) kvs)
      ++ "}"
  end.

(** ** [repr] and [str] of decoded values

    [repr] of a [str] quotes with a single quote, or with a double quote
    when the text holds a single quote and no double quote; it escapes the
    backslash, the chosen quote, tab, newline and carriage return, and the
    other control characters as [\xhh]. *)
Definition sq : ascii := ascii_of_nat 39%nat.

Fixpoint has_char (c : ascii) (s : string) : bool :=
  match s with
  | EmptyString => false
  | String d r => Ascii.eqb c d || has_char c r
  end.

Fixpoint repr_chars (q : ascii) (s : string) : string :=
  match s with
  | EmptyString => EmptyString
  | String c r =>
      let n := char_code c in
      let rest := repr_chars q r in
      if (n =? 92)%nat then String "\" (String "\" rest)
      else if Ascii.eqb c q then String "\" (String c rest)
      else if (n =? 9)%nat then String "\" (String "t" rest)
      else if (n =? 10)%nat then String "\" (String "n" rest)
      else if (n =? 13)%nat then String "\" (String "r" rest)
      else if ((n <? 32) || (n =? 127))%nat then
        "\x" ++ String (hex_char (n / 16)%nat) (String (hex_char (n mod 16)%nat) rest)
      else String c rest
  end.

Definition repr_str (s : string) : string :=
  let q := if has_char sq s && negb (has_char dq s) then dq else sq in
  String q (repr_chars q s ++ String q EmptyString).

(** Storing [k: v] in a dict: an existing key keeps its place and takes the
    new value, a new key goes last. *)
Fixpoint kv_set {V} (k : string) (v : V) (kvs : list (string * V)) : list (string * V) :=
  match kvs with
  | [] => [(k, v)]
  | (k', v') :: r => if String.eqb k k' then (k, v) :: r else (k', v') :: kv_set k v r
  end.

(** The items of the dict [json.loads] builds from the members of an
    object, in order (the last of duplicate keys wins). *)
Definition dict_items {V} (kvs : list (string * V)) : list (string * V) :=
  fold_left (fun acc kv => kv_set (fst kv) (snd kv) acc) kvs [].

(** [repr(x)] of a decoded value. *)
Fixpoint py_repr (j : json) : string :=
  match j with
  | JNull => "None"
  | JBool true => "True"
  | JBool false => "False"
  | JNum z => z_to_str z
  | JStr s => repr_str s
  | JArr l => "[" ++ join ", " (map py_repr l) ++ "]"
  | JObj kvs =>
      "{" ++ join ", " (map (fun kv => repr_str (fst kv) ++ ": " ++ snd kv)
                          (dict_items (map (fun kv => (fst kv, py_repr (snd kv))) kvs)))
      ++ "}"
  end.

(** [str(x)], also [f"{x}"], of a decoded value. *)
Definition py_str (j : json) : string :=
  match j with JStr s => s | _ => py_repr j end.

(** ** A decoder for the JSON texts used in the concrete runs below

    It agrees with [json.loads] on the subset it accepts: [null], [true],
    [false], integers, strings without escape sequences, arrays and objects,
    with JSON whitespace between tokens.  The general theorems do not use
    it: they hold for any decoder (see [json_loads] in section [World]). *)
Definition is_json_ws (c : ascii) : bool :=
  let n := char_code c in ((n =? 32) || (n =? 9) || (n =? 10) || (n =? 13))%nat.

Fixpoint skip_ws (s : string) : string :=
  match s with
  | String c r => if is_json_ws c then skip_ws r else s
  | EmptyString => EmptyString
  end.

Definition is_digit (c : ascii) : bool :=
  let n := char_code c in ((48 <=? n) && (n <=? 57))%nat.

Fixpoint p_digits (s : string) (acc : Z) : Z * string :=
  match s with
  | String c r =>
      if is_digit c then p_digits r (acc * 10 + Z.of_nat (char_code c - 48))%Z
      else (acc, s)
  | EmptyString => (acc, s)
  end.

Definition p_int (s : string) : option (Z * string) :=
  match s with
  | String c _ => if is_digit c then Some (p_digits s 0%Z) else None
  | EmptyString => None
  end.

Fixpoint p_string (s : string) : option (string * string) :=
  match s with
  | EmptyString => None
  | String c r =>
      if Ascii.eqb c dq then Some (EmptyString, r)
      else if (char_code c =? 92)%nat || (char_code c <? 32)%nat then None
      else match p_string r with
           | Some (t, r') => Some (String c t, r')
           | None => None
           end
  end.

Fixpoint p_value (n : nat) (s : string) {struct n} : option (json * string) :=
  match n with
  | O => None
  | S n' =>
      match skip_ws s with
      | EmptyString => None
      | String c r =>
          if Ascii.eqb c "n"%char then
            if String.prefix "ull" r then Some (JNull, substring 3 (String.length r) r) else None
          else if Ascii.eqb c "t"%char then
            if String.prefix "rue" r then Some (JBool true, substring 3 (String.length r) r) else None
          else if Ascii.eqb c "f"%char then
            if String.prefix "alse" r then Some (JBool false, substring 4 (String.length r) r)
            else None
          else if Ascii.eqb c dq then
            match p_string r with Some (t, r') => Some (JStr t, r') | None => None end
          else if Ascii.eqb c "["%char then
            match skip_ws r with
            | String "]"%char r' => Some (JArr [], r')
            | _ => p_elems n' r []
            end
          else if Ascii.eqb c "{"%char then
            match skip_ws r with
            | String "}"%char r' => Some (JObj [], r')
            | _ => p_members n' r []
            end
          else if Ascii.eqb c "-"%char then
            match p_int r with Some (z, r') => Some (JNum (- z)%Z, r') | None => None end
          else
            match p_int (String c r) with Some (z, r') => Some (JNum z, r') | None => None end
      end
  end
with p_elems (n : nat) (s : string) (acc : list json) {struct n}
  : option (json * string) :=
  match n with
  | O => None
  | S n' =>
      match p_value n' s with
      | None => None
      | Some (v, r) =>
          match skip_ws r with
          | String ","%char r' => p_elems n' r' (v :: acc)
          | String "]"%char r' => Some (JArr (rev (v :: acc)), r')
          | _ => None
          end
      end
  end
with p_members (n : nat) (s : string) (acc : list (string * json)) {struct n}
  : option (json * string) :=
  match n with
  | O => None
  | S n' =>
      match skip_ws s with
      | String c r =>
          if Ascii.eqb c dq then
            match p_string r with
            | None => None
            | Some (k, r1) =>
                match skip_ws r1 with
                | String ":"%char r2 =>
                    match p_value n' r2 with
                    | None => None
                    | Some (v, r3) =>
                        match skip_ws r3 with
                        | String ","%char r4 => p_members n' r4 ((k, v) :: acc)
                        | String "}"%char r4 => Some (JObj (rev ((k, v) :: acc)), r4)
                        | _ => None
                        end
                    end
                | _ => None
                end
            end
          else None
      | EmptyString => None
      end
  end.

(** ** Python exceptions met on the paths modelled here *)
Inductive exn : Type :=
| KeyError (key : json)
| TypeError (msg : string)
| AttributeError (msg : string)
| JSONDecodeError (msg : string)
| APIStatusError (status : Z) (message : string)
    (** the client's HTTP status errors; [str(e)] is the message *)
| APIConnectionError (msg : string)
| OSError (msg : string)
| EOFError.

(** [str(e)].  A [KeyError] shows the [repr] of its key. *)
Definition exn_str (e : exn) : string :=
  match e with
  | KeyError k => py_repr k
  | TypeError m | AttributeError m | JSONDecodeError m
  | APIConnectionError m | OSError m => m
  | APIStatusError _ m => m
  | EOFError => "EOF when reading a line"
  end.

(** The concrete decoder: [json.loads] on the subset above. *)
Definition json_loads_subset (s : string) : option json :=
  match p_value (2 * String.length s + 2)%nat s with
  | Some (v, r) => match skip_ws r with EmptyString => Some v | _ => None end
  | None => None
  end.

(** Result of a pure Python computation that may raise. *)
Inductive outcome (A : Type) : Type :=
| Ok (a : A)
| Err (e : exn).
Arguments Ok {A} a.
Arguments Err {A} e.

Definition obind {A B} (m : outcome A) (k : A -> outcome B) : outcome B :=
  match m with Ok a => k a | Err e => Err e end.

Notation "x <-? m ;; k" := (obind m (fun x => k))
  (at level 61, m at next level, right associativity).

(** [try: m except Exception as e: h(e)]. *)
Definition try_except {A} (m : outcome A) (h : exn -> outcome A) : outcome A :=
  match m with Ok a => Ok a | Err e => h e end.

Definition json_loads_py (s : string) : outcome json :=
  match json_loads_subset s with
  | Some v => Ok v
  | None => Err (JSONDecodeError "Expecting value: line 1 column 1 (char 0)")
  end.

(** The status error the client library raises for an HTTP error response
    ([_make_status_error_from_response]): the error text is
    [response.text.strip()]; when it decodes as JSON the message is
    ["Error code: <status> - <str(body)>"], otherwise the text itself, or
    ["Error code: <status>"] when the text is empty. *)
Definition make_status_error (loads : string -> outcome json) (status : Z) (text : string)
    : exn :=
  let err_text := py_strip text in
  APIStatusError status
    (match loads err_text with
     | Ok body => "Error code: " ++ z_to_str status ++ " - " ++ py_str body
     | Err _ => if String.eqb err_text "" then "Error code: " ++ z_to_str status else err_text
     end).

(** ** Conversation memory, standard output and the interpreter state *)
Inductive role : Type := System | User | Assistant | Developer.

Record message : Type := mk_msg { role_of : role; content_of : string }.

(** What the scripts print, one constructor per [print] call site. *)
Inductive event : Type :=
| EvReady                          (** banner printed by [main] *)
| EvBye                            (** farewell on ["exit"] *)
| EvInvalidJson                    (** "Invalid JSON ..., retrying..." *)
| EvRaw (raw : string)             (** [app.py]: "RAW:" line *)
| EvPlan (content : json)          (** PLAN content *)
| EvToolCall (name input : json)   (** [app.py]: "Calling name(input)" *)
| EvToolName (name : json)         (** [cli.py]: tool name only *)
| EvToolResult (shown : string)    (** tool result (truncated to 600 in [cli.py]) *)
| EvAnswer (content : json)        (** final answer line *)
| EvRateLimitWait                  (** "Rate limit hit... waiting 5s" *)
| EvSleep (seconds : Z).           (** [time.sleep] *)

Record st : Type := mk_st {
  history : list message;   (** the global [message_history] *)
  stdout : list event;
  calls : nat               (** requests sent to the model service so far *)
}.

(** A statement either returns, raises, or (for the [while True] loops)
    runs out of the fuel given to the model. *)
Inductive res (A : Type) : Type :=
| ROk (a : A)
| RExn (e : exn)
| RNoFuel.
Arguments ROk {A} a.
Arguments RExn {A} e.
Arguments RNoFuel {A}.

Definition M (A : Type) : Type := st -> res A * st.

Definition ret {A} (a : A) : M A := fun s => (ROk a, s).

Definition bind {A B} (m : M A) (k : A -> M B) : M B :=
  fun s =>
    match m s with
    | (ROk a, s1) => k a s1
    | (RExn e, s1) => (RExn e, s1)
    | (RNoFuel, s1) => (RNoFuel, s1)
    end.

Notation "x <- m ;; k" := (bind m (fun x => k))
  (at level 61, m at next level, right associativity).
Notation "m ;;; k" := (bind m (fun _ => k))
  (at level 61, right associativity).

Definition raise {A} (e : exn) : M A := fun s => (RExn e, s).

Definition lift {A} (o : outcome A) : M A :=
  fun s => match o with Ok a => (ROk a, s) | Err e => (RExn e, s) end.

(** [print(...)]. *)
Definition emit (evs : list event) : M unit :=
  fun s => (ROk tt, mk_st (history s) (stdout s ++ evs)%list (calls s)).

(** [message_history.append(m)]. *)
Definition append_msg (m : message) : M unit :=
  fun s => (ROk tt, mk_st (history s ++ [m])%list (stdout s) (calls s)).

Definition py_type_name (j : json) : string :=
  match j with
  | JNull => "NoneType" | JBool _ => "bool" | JNum _ => "int"
  | JStr _ => "str" | JArr _ => "list" | JObj _ => "dict"
  end.

(** [x.get(k)]: only a dict has [get]. *)
Definition dict_get (kvs : list (string * json)) (k : string) : json :=
  match obj_get kvs k with Some v => v | None => JNull end.

Definition py_get (x : json) (k : string) : outcome json :=
  match x with
  | JObj kvs => Ok (dict_get kvs k)
  | _ => Err (AttributeError ("'" ++ py_type_name x ++ "' object has no attribute 'get'"))
  end.

(** [x[k]] for a string key. *)
Definition py_getitem (x : json) (k : string) : outcome json :=
  match x with
  | JObj kvs => match obj_get kvs k with Some v => Ok v | None => Err (KeyError (JStr k)) end
  | JArr _ => Err (TypeError "list indices must be integers or slices, not str")
  | JStr _ => Err (TypeError "string indices must be integers, not 'str'")
  | _ => Err (TypeError ("'" ++ py_type_name x ++ "' object is not subscriptable"))
  end.

(** [x == "lit"] for a decoded value. *)
Definition is_str (x : json) (lit : string) : bool :=
  match x with JStr t => String.eqb t lit | _ => false end.

(** Replies of the model service to one [client.chat.completions.create]:
    the reply's [choices[0].message.content] (possibly [None]), or a raised
    client exception. *)
Inductive svc_reply : Type :=
| SvcOk (content : option string)
| SvcFail (e : exn).

Record http_response : Type := mk_http { status_code : Z; text : string }.
Record completed : Type := mk_completed { proc_stdout : string; proc_stderr : string }.

Inductive program : Type := App | Cli.

Inductive ctl : Type := Continue | Break.

(** The two [SYSTEM_PROMPT] texts (single quotes stand for double quotes,
    see [jq]). *)
Definition SYSTEM_PROMPT (p : program) : string :=
  match p with
  | App => jq "
You are an AI Weather Agent.

Follow START → PLAN → TOOL → OUTPUT steps.

Strict rules:
- Always return ONLY valid JSON
- No extra text
- One step at a time

JSON format:
{
 'step': 'PLAN' | 'TOOL' | 'OUTPUT',
 'content': 'string',
 'tool': 'string',
 'input': 'string'
}

Available tools:
- get_weather(city:str)
"
  | Cli => jq "
You are an autonomous CLI Coding Agent.

Your goal:
Help user by creating files, writing code and executing commands.

Follow steps:
PLAN → TOOL → OUTPUT

Rules:
- ALWAYS return ONLY JSON
- One step at a time
- NEVER use shell tricks like echo/touch/cat
- Use write_file tool to create files

JSON format:
{
 'step':'PLAN' | 'TOOL' | 'OUTPUT',
 'content':'string',
 'tool':'string',
 'input':'string'
}

Available tools:

run_command:
  input -> command string

write_file:
  input -> JSON string:
  {'filename':'file.py','content':'code'}

read_file:
  input -> filename string
"
  end.

(** Module-level [message_history = [{"role": "system", ...}]]. *)
Definition init_state (p : program) : st :=
  mk_st [mk_msg System (SYSTEM_PROMPT p)] [] 0.

Definition tool : Type := json -> outcome string.

Fixpoint assoc_find (reg : list (string * tool)) (k : string) : option tool :=
  match reg with
  | [] => None
  | (k', f) :: rest => if String.eqb k k' then Some f else assoc_find rest k
  end.

(** [tools[name]]: a list or dict key is unhashable, any other missing key
    is a [KeyError]. *)
Definition tools_getitem (reg : list (string * tool)) (name : json) : outcome tool :=
  match name with
  | JStr k => match assoc_find reg k with Some f => Ok f | None => Err (KeyError name) end
  | JArr _ => Err (TypeError "unhashable type: 'list'")
  | JObj _ => Err (TypeError "unhashable type: 'dict'")
  | _ => Err (KeyError name)
  end.

(** The world the scripts run in: the [json] module's decoder, the model
    service (the reply to the [n]-th request, given the messages sent), and
    the network, process and file-system primitives the tools call.  Each
    primitive may raise. *)
Record world : Type := mk_world {
  json_loads : string -> outcome json;
  service : nat -> list message -> svc_reply;
  requests_get : string -> outcome http_response;
  subprocess_run : json -> outcome completed;
  open_read : json -> outcome string;
  (** [os.makedirs(os.path.dirname(filename) or ".", exist_ok=True)], then
      [open(filename, "w")] and [f.write(content)]. *)
  write_text : string -> json -> outcome unit
}.

(** A model service answering the [n]-th request with the [n]-th scripted
    reply. *)
Definition scripted (rs : list svc_reply) (n : nat) (_ : list message) : svc_reply :=
  nth n rs (SvcOk None).

(** A writable disk: [open(filename, "w")] succeeds and [f.write(content)]
    accepts only a [str]. *)
Definition disk_write (_ : string) (content : json) : outcome unit :=
  match content with
  | JStr _ => Ok tt
  | _ => Err (TypeError ("write() argument must be str, not " ++ py_type_name content))
  end.

(** A concrete world: the JSON subset decoder, a scripted model service, a
    weather service answering 200, a shell printing nothing, no readable
    file and a writable disk. *)
Definition demo_world (rs : list svc_reply) : world :=
  mk_world json_loads_py (scripted rs)
    (fun _ => Ok (mk_http 200 "Sunny +20C"))
    (fun _ => Ok (mk_completed "" ""))
    (fun _ => Err (OSError "[Errno 2] No such file or directory"))
    disk_write.

(** The service's rate-limit error: status 429 with a JSON body. *)
Definition rate_limit_error : exn :=
  make_status_error json_loads_py 429
    (jq "{'error': {'message': 'Rate limit exceeded', 'code': 429}}").

(** A second concrete world: every model request is rejected with status
    429, the network is down, the shell only writes to standard error, and
    every file reads as "hello". *)
Definition busy_world : world :=
  mk_world json_loads_py (fun _ _ => SvcFail rate_limit_error)
    (fun _ => Err (OSError "Connection refused"))
    (fun _ => Ok (mk_completed "" ("ls: cannot access 'x'" ++ String (ascii_of_nat 10) "")))
    (fun _ => Ok "hello")
    disk_write.

(** Model replies used in the concrete runs. *)
Definition plan_reply : string := jq "{'step': 'PLAN', 'content': 'look up the weather'}".
Definition weather_tool_reply : string :=
  jq " {'step': 'TOOL', 'tool': 'get_weather', 'input': 'Paris'} ".
Definition sunny_reply : string := jq "{'step': 'OUTPUT', 'content': 'It is sunny'}".
Definition delete_reply : string :=
  jq "{'step': 'TOOL', 'tool': 'delete_everything', 'input': '/'}".
Definition read_no_input_reply : string := jq "{'step': 'TOOL', 'tool': 'read_file'}".
Definition foo_reply : string := jq "{'step': 'FOO', 'content': 'x'}".
Definition no_step_reply : string := jq "{'content': 'x'}".

Definition paris_replies : list svc_reply :=
  [SvcOk (Some plan_reply); SvcOk (Some weather_tool_reply); SvcOk (Some sunny_reply)].

Definition weather_tool_kvs : list (string * json) :=
  [("step", JStr "TOOL"); ("tool", JStr "get_weather"); ("input", JStr "Paris")].

Section World.

Variable w : world.

(** [json.loads(x)] on an arbitrary Python value. *)
Definition py_loads (x : json) : outcome json :=
  match x with
  | JStr s => json_loads w s
  | _ => Err (TypeError ("the JSON object must be str, bytes or bytearray, not "
                          ++ py_type_name x))
  end.

(** *** Tools of [app.py] *)

Definition get_weather (city : json) : outcome string :=
  try_except
    (low <-? (match city with
              | JStr c => Ok (py_lower c)
              | _ => Err (AttributeError ("'" ++ py_type_name city
                                          ++ "' object has no attribute 'lower'"))
              end) ;;
     r <-? requests_get w ("https://wttr.in/" ++ low ++ "?format=%C+%t") ;;
     if (status_code r =? 200)%Z
     then Ok ("The weather in " ++ py_str city ++ " is " ++ text r)
     else Ok "Weather service unavailable")
    (fun _ => Ok "Weather API error").

(** *** Tools of [cli.py] *)

Definition run_command (cmd : json) : outcome string :=
  try_except
    (result <-? subprocess_run w cmd ;;
     let output := if String.eqb (proc_stdout result) ""
                   then proc_stderr result else proc_stdout result in
     Ok (if String.eqb output "" then "Done." else py_strip output))
    (fun e => Ok (exn_str e)).

Definition write_file (payload : json) : outcome string :=
  try_except
    (data <-? py_loads payload ;;
     filename <-? py_getitem data "filename" ;;
     content <-? py_getitem data "content" ;;
     fname <-? (match filename with
                | JStr f => Ok f
                | _ => Err (TypeError ("expected str, bytes or os.PathLike object, not "
                                       ++ py_type_name filename))
                end) ;;
     _ <-? write_text w fname content ;;
     Ok (fname ++ " written successfully"))
    (fun e => Ok ("Write error: " ++ exn_str e)).

Definition read_file (filename : json) : outcome string :=
  try_except (open_read w filename) (fun e => Ok ("Read error: " ++ exn_str e)).

(** The [tools] dict of each script. *)
Definition tools (p : program) : list (string * tool) :=
  match p with
  | App => [("get_weather", get_weather)]
  | Cli => [("run_command", run_command); ("write_file", write_file);
            ("read_file", read_file)]
  end.

(** *** The model gateway *)

(** [client.chat.completions.create(messages=message_history, ...)]
    followed by [.choices[0].message.content]. *)
Definition client_create : M (option string) :=
  fun s =>
    let s1 := mk_st (history s) (stdout s) (S (calls s)) in
    match service w (calls s) (history s) with
    | SvcOk c => (ROk c, s1)
    | SvcFail e => (RExn e, s1)
    end.

(** [cli.py]'s [safe_llm_call]: [while True: try: return create(...)
    except Exception as e: if "429" in str(e): print; sleep(5) else: raise]. *)
Fixpoint safe_llm_call (fuel : nat) : M (option string) :=
  match fuel with
  | O => fun s => (RNoFuel, s)
  | S f =>
      fun s =>
        match client_create s with
        | (ROk c, s1) => (ROk c, s1)
        | (RExn e, s1) =>
            if py_contains "429" (exn_str e)
            then (emit [EvRateLimitWait; EvSleep 5%Z] ;;; safe_llm_call f) s1
            else (RExn e, s1)
        | (RNoFuel, s1) => (RNoFuel, s1)
        end
  end.

(** The model call each script's loop makes. *)
Definition llm_call (p : program) (fuel : nat) : M (option string) :=
  match p with
  | App => client_create
  | Cli => safe_llm_call fuel
  end.

(** *** The step interpreter and the agent loop *)

(** [response.choices[0].message.content.strip()]. *)
Definition reply_text (c : option string) : outcome string :=
  match c with
  | Some t => Ok (py_strip t)
  | None => Err (AttributeError "'NoneType' object has no attribute 'strip'")
  end.

Definition invalid_json_notice (p : program) (raw : string) : list event :=
  match p with
  | App => [EvInvalidJson; EvRaw raw]
  | Cli => [EvInvalidJson]
  end.

Definition tool_call_notice (p : program) (name input : json) : list event :=
  match p with
  | App => [EvToolCall name input]
  | Cli => [EvToolName name]
  end.

Definition shown_result (p : program) (result : string) : string :=
  match p with
  | App => result
  | Cli => substring 0 600 result
  end.

(** The observation message of a tool run. *)
Definition observation_msg (tool_name : json) (result : string) : message :=
  mk_msg Developer (json_dumps (JObj [("step", JStr "OBSERVE"); ("tool", tool_name);
                                      ("output", JStr result)])).

(** The body of [while True:] after the model call: save the reply, decode
    it, dispatch on its ["step"]. *)
Definition handle_reply (p : program) (c : option string) : M ctl :=
  raw <- lift (reply_text c) ;;
  append_msg (mk_msg Assistant raw) ;;;
  match json_loads w raw with
  | Err _ => emit (invalid_json_notice p raw) ;;; ret Continue
  | Ok step =>
      step_type <- lift (py_get step "step") ;;
      if is_str step_type "PLAN" then
        content <- lift (py_get step "content") ;;
        emit [EvPlan content] ;;; ret Continue
      else if is_str step_type "TOOL" then
        tool_name <- lift (py_get step "tool") ;;
        tool_input <- lift (py_get step "input") ;;
        emit (tool_call_notice p tool_name tool_input) ;;;
        f <- lift (tools_getitem (tools p) tool_name) ;;
        result <- lift (f tool_input) ;;
        emit [EvToolResult (shown_result p result)] ;;;
        append_msg (observation_msg tool_name result) ;;;
        ret Continue
      else if is_str step_type "OUTPUT" then
        content <- lift (py_get step "content") ;;
        emit [EvAnswer content] ;;; ret Break
      else ret Continue
  end.

(** One iteration of the loop. *)
Definition agent_step (p : program) (fuel : nat) : M ctl :=
  c <- llm_call p fuel ;; handle_reply p c.

(** [while True: ...], iterated at most [fuel] times. *)
Fixpoint agent_loop (p : program) (fuel : nat) : M unit :=
  match fuel with
  | O => fun s => (RNoFuel, s)
  | S f =>
      ctl <- agent_step p fuel ;;
      match ctl with
      | Continue => agent_loop p f
      | Break => ret tt
      end
  end.

(** [run_agent(user_query)]; its Python return value is [None]. *)
Definition run_agent (p : program) (fuel : nat) (user_query : string) : M json :=
  append_msg (mk_msg User user_query) ;;;
  agent_loop p fuel ;;;
  ret JNull.

(** [main()]: one line of [input()] per turn; [EOFError] once input ends. *)
Fixpoint main_loop (p : program) (fuel : nat) (inputs : list string) : M unit :=
  match inputs with
  | [] => raise EOFError
  | q :: rest =>
      if String.eqb (py_lower q) "exit" then emit [EvBye]
      else run_agent p fuel q ;;; main_loop p fuel rest
  end.

Definition main (p : program) (fuel : nat) (inputs : list string) : M unit :=
  emit [EvReady] ;;; main_loop p fuel inputs.

(** [m] only appends to the history, and never a system message. *)
Definition grows {A} (m : M A) : Prop :=
  forall s, exists ext,
    history (snd (m s)) = (history s ++ ext)%list /\
    Forall (fun msg => role_of msg <> System) ext.

(** [m] only appends to the history, and only messages satisfying [P]. *)
Definition appends_only (P : message -> Prop) {A} (m : M A) : Prop :=
  forall s, exists ext,
    history (snd (m s)) = (history s ++ ext)%list /\ Forall P ext.



(** [m] sends no request to the model service. *)
Definition keeps_calls {A} (m : M A) : Prop := forall s, calls (snd (m s)) = calls s.

(** [m] only prints, and only events satisfying [P]. *)
Definition prints_only (P : event -> Prop) {A} (m : M A) : Prop :=
  forall s, exists ext, stdout (snd (m s)) = (stdout s ++ ext)%list /\ Forall P ext.

(** [m] always ends, normally or by an exception. *)
Definition always_ends {A} (m : M A) : Prop := forall s, fst (m s) <> RNoFuel.

Definition is_wait (ev : event) : bool :=
  match ev with EvRateLimitWait => true | _ => false end.

(** The number of rate-limit notices among printed events. *)
Definition count_waits (evs : list event) : nat := length (filter is_wait evs).

(** ** Properties *)

Lemma try_except_total {A} (m : outcome A) (h : exn -> outcome A) :
  (forall e, exists a, h e = Ok a) -> exists a, try_except m h = Ok a.
Proof.
  intros Hh. destruct m as [a|e]; simpl; [eauto | apply Hh].
Qed.

(** Every tool of either registry returns a string and never raises. *)
Lemma tool_total (p : program) (k : string) (f : tool) (x : json) :
  assoc_find (tools p) k = Some f -> exists r, f x = Ok r.
Proof.
  destruct p; simpl; intros Hf;
    repeat match type of Hf with
           | context [String.eqb ?a ?b] => destruct (String.eqb a b)
           end;
    try discriminate; injection Hf as <-;
    apply try_except_total; eauto.
Qed.

Ltac unfold_m :=
  unfold handle_reply, bind, lift, append_msg, emit, ret, reply_text, py_get; cbn.

(** Appending two messages at once is the same as two appends. *)
Lemma app_two {A} (l : list A) (a b : A) : ((l ++ [a]) ++ [b] = l ++ [a; b])%list.
Proof. rewrite <- app_assoc. reflexivity. Qed.

(** C7: a TOOL step naming a registered tool makes [dispatch] append exactly
    one message, the serialized Observation carrying the tool's name and
    its string result, right after the saved assistant reply. *)
Theorem tool_step_appends_one_observation (p : program) (raw : string) (s : st)
    (kvs : list (string * json)) (k : string) (f : tool) :
  json_loads w (py_strip raw) = Ok (JObj kvs) ->
  dict_get kvs "step" = JStr "TOOL" ->
  dict_get kvs "tool" = JStr k ->
  assoc_find (tools p) k = Some f ->
  exists result out,
    f (dict_get kvs "input") = Ok result /\
    handle_reply p (Some raw) s =
      (ROk Continue,
       mk_st (history s ++ [mk_msg Assistant (py_strip raw);
                            observation_msg (JStr k) result])%list
             out (calls s)).
Proof.
  intros Hload Hstep Htool Hf.
  destruct (tool_total p k f (dict_get kvs "input") Hf) as [r Hr].
  exists r. eexists. split; [exact Hr|].
  unfold_m. rewrite Hload. cbn. rewrite Hstep. cbn. rewrite Htool. cbn.
  rewrite Hf, Hr. cbn. rewrite app_two. reflexivity.
Qed.

(** C10: the input field is not validated: the registered tool is called
    with [step.get("input")] whatever that holds, of any type, and with
    [None] when the field is absent; since the tool catches its own failures
    an Observation is still appended and the loop continues. *)
Theorem absent_input_passed_as_None (p : program) (raw : string) (s : st)
    (kvs : list (string * json)) (k : string) (f : tool) :
  json_loads w (py_strip raw) = Ok (JObj kvs) ->
  dict_get kvs "step" = JStr "TOOL" ->
  dict_get kvs "tool" = JStr k ->
  assoc_find (tools p) k = Some f ->
  (obj_get kvs "input" = None -> dict_get kvs "input" = JNull) /\
  exists result,
    f (dict_get kvs "input") = Ok result /\
    handle_reply p (Some raw) s =
      (ROk Continue,
       mk_st (history s ++ [mk_msg Assistant (py_strip raw);
                            observation_msg (JStr k) result])%list
             (stdout s ++ tool_call_notice p (JStr k) (dict_get kvs "input")
                       ++ [EvToolResult (shown_result p result)])%list
             (calls s)).
Proof.
  intros Hload Hstep Htool Hf. split.
  - intros Hin. unfold dict_get. rewrite Hin. reflexivity.
  - destruct (tool_total p k f (dict_get kvs "input") Hf) as [r Hr].
    exists r. split; [exact Hr|].
    unfold_m. rewrite Hload. cbn. rewrite Hstep. cbn. rewrite Htool. cbn.
    rewrite Hf, Hr. cbn. rewrite app_two, <- app_assoc. reflexivity.
Qed.

(** C9: every registered tool returns a string for every input and never
    raises to the loop; a failure of the primitive it calls becomes an
    error-message string. *)
Theorem tools_never_raise (p : program) :
  Forall (fun kf => forall x, exists r, snd kf x = Ok r) (tools p) /\
  (forall x, get_weather x = Ok "Weather API error" \/
             get_weather x = Ok "Weather service unavailable" \/
             exists t, get_weather x = Ok ("The weather in " ++ py_str x ++ " is " ++ t)) /\
  (forall x, exists r, run_command x = Ok r /\
     ((exists c, subprocess_run w x = Ok c) \/
      exists e, subprocess_run w x = Err e /\ r = exn_str e)) /\
  (forall x, exists r, write_file x = Ok r /\
     ((exists f, r = f ++ " written successfully") \/
      exists e, r = "Write error: " ++ exn_str e)) /\
  (forall x, exists r, read_file x = Ok r /\
     (open_read w x = Ok r \/
      exists e, open_read w x = Err e /\ r = "Read error: " ++ exn_str e)).
Proof.
  split; [|split; [|split; [|split]]].
  - destruct p; simpl; repeat constructor; intros x; apply try_except_total; eauto.
  - intros x. unfold get_weather, try_except, obind.
    destruct x as [| | |c| |]; auto.
    destruct (requests_get w _) as [r|e]; auto.
    destruct (status_code r =? 200)%Z; eauto.
  - intros x. unfold run_command, try_except, obind.
    destruct (subprocess_run w x) as [c|e]; eauto 6.
  - intros x. unfold write_file, try_except, obind.
    destruct (py_loads x) as [d|e]; [|eauto 6].
    destruct (py_getitem d "filename") as [fn|e]; [|eauto 6].
    destruct (py_getitem d "content") as [ct|e]; [|eauto 6].
    destruct fn as [| | |f| |]; try (eexists; split; [reflexivity|]; eauto).
    destruct (write_text w f ct) as [[]|e]; eauto 6.
  - intros x. unfold read_file, try_except.
    destruct (open_read w x) as [t|e]; eauto 6.
Qed.

Lemma agent_step_eq (p : program) (fuel : nat) (s : st) :
  agent_step p fuel s =
  match llm_call p fuel s with
  | (ROk c, s1) => handle_reply p c s1
  | (RExn e, s1) => (RExn e, s1)
  | (RNoFuel, s1) => (RNoFuel, s1)
  end.
Proof. reflexivity. Qed.

Lemma agent_loop_S (p : program) (fuel : nat) (s : st) :
  agent_loop p (S fuel) s =
  match agent_step p (S fuel) s with
  | (ROk Continue, s1) => agent_loop p fuel s1
  | (ROk Break, s1) => (ROk tt, s1)
  | (RExn e, s1) => (RExn e, s1)
  | (RNoFuel, s1) => (RNoFuel, s1)
  end.
Proof.
  simpl agent_loop. unfold bind at 1.
  destruct (agent_step p (S fuel) s) as [[[|]|e|] s1]; reflexivity.
Qed.

Lemma is_str_true (j : json) (l : string) : is_str j l = true -> j = JStr l.
Proof.
  destruct j; simpl; try discriminate.
  intros H. apply String.eqb_eq in H. subst. reflexivity.
Qed.

Lemma is_str_JStr (l : string) : is_str (JStr l) l = true.
Proof. simpl. apply String.eqb_refl. Qed.

(** The only way an iteration breaks out of the loop: the reply decodes to
    an object with step OUTPUT; the reply is saved and the content
    printed. *)
Lemma handle_reply_break (p : program) (c : option string) (s s' : st) :
  handle_reply p c s = (ROk Break, s') ->
  exists raw kvs,
    c = Some raw /\
    json_loads w (py_strip raw) = Ok (JObj kvs) /\
    dict_get kvs "step" = JStr "OUTPUT" /\
    s' = mk_st (history s ++ [mk_msg Assistant (py_strip raw)])%list
               (stdout s ++ [EvAnswer (dict_get kvs "content")])%list (calls s).
Proof.
  destruct c as [raw|]; [|unfold_m; discriminate].
  unfold_m. destruct (json_loads w (py_strip raw)) as [j|e] eqn:Hl; cbn;
    [|discriminate].
  destruct j as [| | | | |kvs]; cbn; try discriminate.
  destruct (is_str (dict_get kvs "step") "PLAN"); cbn; [discriminate|].
  destruct (is_str (dict_get kvs "step") "TOOL"); cbn.
  - destruct (tools_getitem (tools p) (dict_get kvs "tool")) as [f|e]; cbn;
      [destruct (f (dict_get kvs "input")); cbn|]; discriminate.
  - destruct (is_str (dict_get kvs "step") "OUTPUT") eqn:Ho; cbn; [|discriminate].
    intros H. injection H as <-. exists raw, kvs.
    repeat split; auto. apply is_str_true. exact Ho.
Qed.

(** C5: a TOOL step naming a tool that is not a key of the registry raises
    ([KeyError], or [TypeError] for an unhashable name) out of the loop; the
    run aborts and the history holds the saved reply but no observation. *)
Theorem unregistered_tool_aborts (p : program) (fuel : nat) (s s1 : st)
    (raw : string) (kvs : list (string * json)) :
  llm_call p (S fuel) s = (ROk (Some raw), s1) ->
  json_loads w (py_strip raw) = Ok (JObj kvs) ->
  dict_get kvs "step" = JStr "TOOL" ->
  (forall k, dict_get kvs "tool" = JStr k -> assoc_find (tools p) k = None) ->
  exists e s',
    agent_loop p (S fuel) s = (RExn e, s') /\
    (e = KeyError (dict_get kvs "tool") \/ exists m, e = TypeError m) /\
    history s' = (history s1 ++ [mk_msg Assistant (py_strip raw)])%list.
Proof.
  intros Hcall Hload Hstep Hmiss.
  rewrite agent_loop_S, agent_step_eq, Hcall.
  unfold_m. rewrite Hload. cbn. rewrite Hstep. cbn.
  destruct (dict_get kvs "tool") as [| | |k| |] eqn:Ht; cbn;
    try (do 2 eexists; split; [reflexivity|]; split; [eauto|reflexivity]).
  rewrite (Hmiss k eq_refl). cbn.
  do 2 eexists. split; [reflexivity|]. split; [left; reflexivity|reflexivity].
Qed.

(** C4 (as the code does it): a decoded object whose step field is absent
    or not one of PLAN, TOOL, OUTPUT raises nothing: only the reply is
    saved, nothing is printed, and the loop goes on to its next model
    call. *)
Theorem unknown_step_kind_continues (p : program) (fuel : nat) (s s1 : st)
    (raw : string) (kvs : list (string * json)) :
  llm_call p (S fuel) s = (ROk (Some raw), s1) ->
  json_loads w (py_strip raw) = Ok (JObj kvs) ->
  is_str (dict_get kvs "step") "PLAN" = false ->
  is_str (dict_get kvs "step") "TOOL" = false ->
  is_str (dict_get kvs "step") "OUTPUT" = false ->
  handle_reply p (Some raw) s1 =
    (ROk Continue,
     mk_st (history s1 ++ [mk_msg Assistant (py_strip raw)])%list (stdout s1) (calls s1)) /\
  agent_loop p (S fuel) s =
    agent_loop p fuel
      (mk_st (history s1 ++ [mk_msg Assistant (py_strip raw)])%list (stdout s1) (calls s1)).
Proof.
  intros Hcall Hload Hp Ht Ho.
  assert (Hh : handle_reply p (Some raw) s1 =
    (ROk Continue,
     mk_st (history s1 ++ [mk_msg Assistant (py_strip raw)])%list (stdout s1) (calls s1))).
  { unfold_m. rewrite Hload. cbn. rewrite Hp, Ht, Ho. reflexivity. }
  split; [exact Hh|].
  rewrite agent_loop_S, agent_step_eq, Hcall, Hh. reflexivity.
Qed.

(** C6 (as the code does it): an OUTPUT step ends the loop and its content
    is printed; [run_agent] itself returns [None], never the content. *)
Theorem output_step_printed_run_returns_None (p : program) (fuel : nat) (s s1 : st)
    (raw : string) (kvs : list (string * json)) :
  llm_call p (S fuel) s = (ROk (Some raw), s1) ->
  json_loads w (py_strip raw) = Ok (JObj kvs) ->
  dict_get kvs "step" = JStr "OUTPUT" ->
  agent_loop p (S fuel) s =
    (ROk tt,
     mk_st (history s1 ++ [mk_msg Assistant (py_strip raw)])%list
           (stdout s1 ++ [EvAnswer (dict_get kvs "content")])%list (calls s1)) /\
  (forall q s0 v, fst (run_agent p fuel q s0) = ROk v -> v = JNull).
Proof.
  intros Hcall Hload Hstep. split.
  - rewrite agent_loop_S, agent_step_eq, Hcall.
    unfold_m. rewrite Hload. cbn. rewrite Hstep. reflexivity.
  - intros q s0 v. unfold run_agent, bind at 1, append_msg.
    unfold bind. destruct (agent_loop p fuel _) as [[[]|e|] s2]; simpl; congruence.
Qed.

(** A TOOL step naming a tool that is not a key of the registry raises
    [KeyError], or [TypeError] for an unhashable name. *)
Lemma handle_reply_unregistered (p : program) (raw : string) (s : st)
    (kvs : list (string * json)) :
  json_loads w (py_strip raw) = Ok (JObj kvs) ->
  dict_get kvs "step" = JStr "TOOL" ->
  (forall k, dict_get kvs "tool" = JStr k -> assoc_find (tools p) k = None) ->
  exists e s', handle_reply p (Some raw) s = (RExn e, s') /\
    (e = KeyError (dict_get kvs "tool") \/ exists m, e = TypeError m).
Proof.
  intros Hload Hstep Hmiss. unfold_m. rewrite Hload. cbn. rewrite Hstep. cbn.
  destruct (dict_get kvs "tool") as [| | |k| |] eqn:Ht; cbn;
    try (do 2 eexists; split; [reflexivity|]; eauto).
  rewrite (Hmiss k eq_refl). cbn. do 2 eexists. split; [reflexivity|]. left; reflexivity.
Qed.

(** C1 (as the code does it): an iteration leaves the loop normally exactly
    when the reply decodes to an object whose step is OUTPUT; a reply that
    fails to decode, or decodes to an object whose step is PLAN, TOOL with a
    registered tool, or anything else, continues with the next model call;
    a run that ends normally ends right after an OUTPUT reply; and the loop
    also ends, by an exception and without an OUTPUT step, at a TOOL step
    naming an unregistered tool ([KeyError] or [TypeError]) or at a
    model-service failure that the model call does not retry. *)
Theorem loop_exits_exactly_on_output (p : program) :
  (forall raw s,
     fst (handle_reply p (Some raw) s) = ROk Break <->
     exists kvs, json_loads w (py_strip raw) = Ok (JObj kvs) /\
                 dict_get kvs "step" = JStr "OUTPUT") /\
  (forall raw s,
     ((exists e, json_loads w (py_strip raw) = Err e) \/
      (exists kvs, json_loads w (py_strip raw) = Ok (JObj kvs) /\
         is_str (dict_get kvs "step") "OUTPUT" = false /\
         (is_str (dict_get kvs "step") "TOOL" = true ->
            exists k f, dict_get kvs "tool" = JStr k /\ assoc_find (tools p) k = Some f))) ->
     fst (handle_reply p (Some raw) s) = ROk Continue) /\
  (forall fuel s s',
     agent_loop p fuel s = (ROk tt, s') ->
     exists h text kvs,
       history s' = (h ++ [mk_msg Assistant text])%list /\
       json_loads w text = Ok (JObj kvs) /\ dict_get kvs "step" = JStr "OUTPUT") /\
  (forall fuel s s1 raw kvs,
     llm_call p (S fuel) s = (ROk (Some raw), s1) ->
     json_loads w (py_strip raw) = Ok (JObj kvs) ->
     dict_get kvs "step" = JStr "TOOL" ->
     (forall k, dict_get kvs "tool" = JStr k -> assoc_find (tools p) k = None) ->
     exists e s', agent_loop p (S fuel) s = (RExn e, s') /\
       (e = KeyError (dict_get kvs "tool") \/ exists m, e = TypeError m)) /\
  (forall fuel s e s1,
     llm_call p (S fuel) s = (RExn e, s1) ->
     agent_loop p (S fuel) s = (RExn e, s1)).
Proof.
  split; [|split; [|split; [|split]]].
  - intros raw s. split.
    + destruct (handle_reply p (Some raw) s) as [r s'] eqn:E. simpl. intros ->.
      apply handle_reply_break in E as (raw' & kvs & Hc & Hl & Hs & _).
      injection Hc as <-. eauto.
    + intros (kvs & Hl & Hs). unfold_m. rewrite Hl. cbn. rewrite Hs. reflexivity.
  - intros raw s [(e & Hl) | (kvs & Hl & Ho & Ht)].
    + unfold_m. rewrite Hl. reflexivity.
    + unfold_m. rewrite Hl. cbn.
      destruct (is_str (dict_get kvs "step") "PLAN"); cbn; [reflexivity|].
      destruct (is_str (dict_get kvs "step") "TOOL"); cbn.
      * destruct (Ht eq_refl) as (k & f & Hk & Hf). rewrite Hk. cbn. rewrite Hf.
        destruct (tool_total p k f (dict_get kvs "input") Hf) as [r Hr].
        rewrite Hr. reflexivity.
      * rewrite Ho. reflexivity.
  - intros fuel. induction fuel as [|f IH]; intros s s' Hrun; [discriminate|].
    rewrite agent_loop_S, agent_step_eq in Hrun.
    destruct (llm_call p (S f) s) as [[c|e|] s1]; try discriminate.
    destruct (handle_reply p c s1) as [[[|]|e|] s2] eqn:Hh; try discriminate.
    + exact (IH s2 s' Hrun).
    + injection Hrun as <-.
      apply handle_reply_break in Hh as (raw & kvs & _ & Hl & Hs & ->).
      exists (history s1), (py_strip raw), kvs. auto.
  - intros fuel s s1 raw kvs Hcall Hload Hstep Hmiss.
    destruct (handle_reply_unregistered p raw s1 kvs Hload Hstep Hmiss)
      as (e & s' & Hh & He).
    exists e, s'. split; [|exact He].
    rewrite agent_loop_S, agent_step_eq, Hcall, Hh. reflexivity.
  - intros fuel s e s1 Hcall. rewrite agent_loop_S, agent_step_eq, Hcall. reflexivity.
Qed.

(** After [n] failures whose text contains "429", a success: [n] notices
    and sleeps, [n + 1] requests with the same history. *)
Lemma safe_llm_call_retries (n fuel : nat) (s : st) (c : option string) :
  n < fuel ->
  (forall i, i < n -> exists e,
     service w (calls s + i) (history s) = SvcFail e /\
     py_contains "429" (exn_str e) = true) ->
  service w (calls s + n) (history s) = SvcOk c ->
  safe_llm_call fuel s =
    (ROk c, mk_st (history s)
              (stdout s ++ concat (repeat [EvRateLimitWait; EvSleep 5%Z] n))%list
              (calls s + n + 1)).
Proof.
  revert fuel s. induction n as [|m IH]; intros fuel s Hlt Hfail Hok;
    (destruct fuel as [|f]; [lia|]).
  - rewrite Nat.add_0_r in Hok. simpl. unfold client_create. rewrite Hok.
    simpl. rewrite app_nil_r. f_equal. f_equal. lia.
  - destruct (Hfail 0 ltac:(lia)) as (e & He & H429).
    rewrite Nat.add_0_r in He. simpl. unfold client_create. rewrite He.
    rewrite H429. unfold bind, emit. simpl.
    rewrite (IH f); simpl.
    + rewrite <- app_assoc. f_equal. f_equal. lia.
    + lia.
    + intros i Hi. replace (S (calls s + i)) with (calls s + S i) by lia.
      apply Hfail. lia.
    + replace (S (calls s + m)) with (calls s + S m) by lia. exact Hok.
Qed.

(** X19: [cli.py]'s [safe_llm_call] resends the same request, after a
    notice and a 5 second sleep, after every failure whose text contains
    "429", whatever its kind or status; when the service then answers, the
    call returns that answer after [n] notices and [n + 1] requests. Any
    other failure is re-raised at once, after one request. *)
Theorem safe_llm_call_policy :
  (forall n fuel s c,
     n < fuel ->
     (forall i, i < n -> exists e,
        service w (calls s + i) (history s) = SvcFail e /\
        py_contains "429" (exn_str e) = true) ->
     service w (calls s + n) (history s) = SvcOk c ->
     safe_llm_call fuel s =
       (ROk c, mk_st (history s)
                 (stdout s ++ concat (repeat [EvRateLimitWait; EvSleep 5%Z] n))%list
                 (calls s + n + 1))) /\
  (forall fuel s e,
     service w (calls s) (history s) = SvcFail e ->
     py_contains "429" (exn_str e) = false ->
     safe_llm_call (S fuel) s = (RExn e, mk_st (history s) (stdout s) (S (calls s)))).
Proof.
  split.
  - intros n fuel s c. apply safe_llm_call_retries.
  - intros fuel s e He H. simpl. unfold client_create. rewrite He, H. reflexivity.
Qed.

Lemma grows_ret {A} (a : A) : grows (ret a).
Proof. intros s. exists []. rewrite app_nil_r. auto. Qed.

Lemma grows_stop {A} : grows (fun s => (@RNoFuel A, s)).
Proof. intros s. exists []. rewrite app_nil_r. auto. Qed.

Lemma grows_raise {A} (e : exn) : grows (@raise A e).
Proof. intros s. exists []. rewrite app_nil_r. auto. Qed.

Lemma grows_lift {A} (o : outcome A) : grows (lift o).
Proof. intros s. exists []. destruct o; simpl; rewrite app_nil_r; auto. Qed.

Lemma grows_emit (evs : list event) : grows (emit evs).
Proof. intros s. exists []. simpl. rewrite app_nil_r. auto. Qed.

Lemma grows_append (m : message) : role_of m <> System -> grows (append_msg m).
Proof. intros Hm s. exists [m]. auto. Qed.

Lemma grows_bind {A B} (m : M A) (k : A -> M B) :
  grows m -> (forall a, grows (k a)) -> grows (bind m k).
Proof.
  intros Hm Hk s. unfold bind.
  destruct (Hm s) as (ext1 & H1 & F1).
  destruct (m s) as [[a|e|] s1]; simpl in H1 |- *.
  - destruct (Hk a s1) as (ext2 & H2 & F2). exists (ext1 ++ ext2)%list.
    rewrite H2, H1, app_assoc. split; [reflexivity|]. apply Forall_app. auto.
  - eauto.
  - eauto.
Qed.

Ltac grow :=
  repeat first
    [ apply grows_ret | apply grows_stop | apply grows_raise | apply grows_lift
    | apply grows_emit | apply grows_append; discriminate
    | apply grows_bind; [|intro]
    | match goal with
      | |- grows (if ?b then _ else _) => destruct b
      | |- grows (match ?x with _ => _ end) => destruct x
      end ].

Lemma grows_safe_llm_call (fuel : nat) : grows (safe_llm_call fuel).
Proof.
  induction fuel as [|f IH]; [apply grows_stop|].
  intros s. simpl. unfold client_create.
  destruct (service w (calls s) (history s)) as [c|e]; simpl.
  - exists []. rewrite app_nil_r. auto.
  - destruct (py_contains "429" (exn_str e)).
    + assert (G : grows (emit [EvRateLimitWait; EvSleep 5%Z] ;;; safe_llm_call f))
        by (apply grows_bind; [apply grows_emit | intros; exact IH]).
      exact (G (mk_st (history s) (stdout s) (S (calls s)))).
    + exists []. rewrite app_nil_r. auto.
Qed.

Lemma grows_llm_call (p : program) (fuel : nat) : grows (llm_call p fuel).
Proof.
  destruct p; simpl; [|apply grows_safe_llm_call].
  intros s. unfold client_create. exists [].
  destruct (service w (calls s) (history s)); simpl; rewrite app_nil_r; auto.
Qed.

Lemma grows_handle_reply (p : program) (c : option string) : grows (handle_reply p c).
Proof. unfold handle_reply. grow. Qed.

Lemma grows_agent_step (p : program) (fuel : nat) : grows (agent_step p fuel).
Proof.
  unfold agent_step. apply grows_bind; [apply grows_llm_call|].
  intros c. apply grows_handle_reply.
Qed.

Lemma grows_agent_loop (p : program) (fuel : nat) : grows (agent_loop p fuel).
Proof.
  induction fuel as [|f IH]; simpl; [apply grows_stop|].
  apply grows_bind; [apply grows_agent_step|].
  intros []; [exact IH | apply grows_ret].
Qed.

Lemma grows_run_agent (p : program) (fuel : nat) (q : string) : grows (run_agent p fuel q).
Proof.
  unfold run_agent. apply grows_bind; [apply grows_append; discriminate|intros _].
  apply grows_bind; [apply grows_agent_loop | intros _; apply grows_ret].
Qed.

Lemma grows_main (p : program) (fuel : nat) (inputs : list string) :
  grows (main p fuel inputs).
Proof.
  unfold main. apply grows_bind; [apply grows_emit|intros _].
  induction inputs as [|q rest IH]; simpl; [apply grows_raise|].
  destruct (String.eqb (py_lower q) "exit"); [apply grows_emit|].
  apply grows_bind; [apply grows_run_agent | intros _; exact IH].
Qed.

(** C8: every model call, every iteration and every run of the loop only
    append to Conversation Memory (never a system message), so the memory
    of a session always starts with the one system message it was seeded
    with and never shrinks. *)
Theorem memory_append_only (p : program) (fuel : nat) :
  grows (agent_step p fuel) /\
  (forall q, grows (run_agent p fuel q)) /\
  (forall inputs, exists rest,
     history (snd (main p fuel inputs (init_state p))) =
       mk_msg System (SYSTEM_PROMPT p) :: rest /\
     Forall (fun m => role_of m <> System) rest).
Proof.
  split; [apply grows_agent_step|split; [intros q; apply grows_run_agent|]].
  intros inputs. destruct (grows_main p fuel inputs (init_state p)) as (ext & H & F).
  exists ext. split; [exact H | exact F].
Qed.

(** *** Further properties of the code *)

Lemma ao_ret (P : message -> Prop) {A} (a : A) : appends_only P (ret a).
Proof. intros s. exists []. rewrite app_nil_r. auto. Qed.

Lemma ao_stop (P : message -> Prop) {A} : appends_only P (fun s => (@RNoFuel A, s)).
Proof. intros s. exists []. rewrite app_nil_r. auto. Qed.

Lemma ao_raise (P : message -> Prop) {A} (e : exn) : appends_only P (@raise A e).
Proof. intros s. exists []. rewrite app_nil_r. auto. Qed.

Lemma ao_lift (P : message -> Prop) {A} (o : outcome A) : appends_only P (lift o).
Proof. intros s. exists []. destruct o; simpl; rewrite app_nil_r; auto. Qed.

Lemma ao_emit (P : message -> Prop) (evs : list event) : appends_only P (emit evs).
Proof. intros s. exists []. simpl. rewrite app_nil_r. auto. Qed.

Lemma ao_append (P : message -> Prop) (m : message) : P m -> appends_only P (append_msg m).
Proof. intros Hm s. exists [m]. auto. Qed.

Lemma ao_bind (P : message -> Prop) {A B} (m : M A) (k : A -> M B) :
  appends_only P m -> (forall a, appends_only P (k a)) -> appends_only P (bind m k).
Proof.
  intros Hm Hk s. unfold bind.
  destruct (Hm s) as (ext1 & H1 & F1).
  destruct (m s) as [[a|e|] s1]; simpl in H1 |- *.
  - destruct (Hk a s1) as (ext2 & H2 & F2). exists (ext1 ++ ext2)%list.
    rewrite H2, H1, app_assoc. split; [reflexivity|]. apply Forall_app. auto.
  - eauto.
  - eauto.
Qed.

Lemma ao_client_create (P : message -> Prop) : appends_only P client_create.
Proof.
  intros s. unfold client_create. exists [].
  destruct (service w (calls s) (history s)); simpl; rewrite app_nil_r; auto.
Qed.

Lemma ao_safe_llm_call (P : message -> Prop) (fuel : nat) :
  appends_only P (safe_llm_call fuel).
Proof.
  induction fuel as [|f IH]; [apply ao_stop|].
  intros s. simpl. unfold client_create.
  destruct (service w (calls s) (history s)) as [c|e]; simpl.
  - exists []. rewrite app_nil_r. auto.
  - destruct (py_contains "429" (exn_str e)).
    + assert (G : appends_only P (emit [EvRateLimitWait; EvSleep 5%Z] ;;; safe_llm_call f))
        by (apply ao_bind; [apply ao_emit | intros; exact IH]).
      exact (G (mk_st (history s) (stdout s) (S (calls s)))).
    + exists []. rewrite app_nil_r. auto.
Qed.

Lemma ao_llm_call (P : message -> Prop) (p : program) (fuel : nat) :
  appends_only P (llm_call p fuel).
Proof. destruct p; [apply ao_client_create | apply ao_safe_llm_call]. Qed.

(** Within a run, the loop appends assistant and developer messages only. *)
Lemma ao_agent_loop (p : program) (fuel : nat) :
  appends_only (fun m => role_of m = Assistant \/ role_of m = Developer) (agent_loop p fuel).
Proof.
  induction fuel as [|f IH]; simpl; [apply ao_stop|].
  apply ao_bind; [|intros []; [exact IH | apply ao_ret]].
  unfold agent_step. apply ao_bind; [apply ao_llm_call|intros c].
  unfold handle_reply.
  repeat first
    [ apply ao_ret | apply ao_lift | apply ao_emit
    | apply ao_append; cbn; auto
    | apply ao_bind; [|intro]
    | match goal with
      | |- appends_only _ (if ?b then _ else _) => destruct b
      | |- appends_only _ (match ?x with _ => _ end) => destruct x
      end ].
Qed.

Lemma run_agent_user_turn (p : program) (fuel : nat) (q : string) (s : st) :
  exists ext,
    history (snd (run_agent p fuel q s)) = (history s ++ mk_msg User q :: ext)%list /\
    Forall (fun m => role_of m = Assistant \/ role_of m = Developer) ext.
Proof.
  unfold run_agent, bind at 1, append_msg. cbn.
  set (s1 := mk_st (history s ++ [mk_msg User q])%list (stdout s) (calls s)).
  destruct (ao_agent_loop p fuel s1) as (ext & H & F).
  exists ext. split; [|exact F].
  unfold bind. destruct (agent_loop p fuel s1) as [[]  s2]; simpl in H |- *;
    rewrite H; subst s1; simpl; rewrite <- app_assoc; reflexivity.
Qed.



(** X1: a line whose lowercase is "exit" (so also "EXIT" or "Exit") ends the
    session normally: the goodbye is printed, no model request is sent and
    the memory is left as it was; the remaining lines are never read. *)
Theorem exit_line_ends_session (p : program) (fuel : nat) (q : string)
    (rest : list string) (s : st) :
  py_lower q = "exit" ->
  main_loop p fuel (q :: rest) s =
    (ROk tt, mk_st (history s) (stdout s ++ [EvBye])%list (calls s)).
Proof. intros H. simpl. rewrite H. reflexivity. Qed.

(** X2: each run first saves the user's query as a user message; everything
    the run adds after it is an assistant or developer message, whether the
    run ends normally, by an exception or not at all. *)
Theorem run_records_query_first (p : program) (fuel : nat) (q : string) (s : st) :
  exists ext,
    history (snd (run_agent p fuel q s)) = (history s ++ mk_msg User q :: ext)%list /\
    Forall (fun m => role_of m = Assistant \/ role_of m = Developer) ext.
Proof. apply run_agent_user_turn. Qed.


(** X4: [app.py] calls the client directly: a failing request, a rate limit
    included, ends the run with that exception after one request, with
    nothing printed or saved. *)
Theorem app_model_error_not_retried (fuel : nat) (s : st) (e : exn) :
  service w (calls s) (history s) = SvcFail e ->
  agent_loop App (S fuel) s = (RExn e, mk_st (history s) (stdout s) (S (calls s))).
Proof.
  intros H. rewrite agent_loop_S, agent_step_eq. simpl. unfold client_create.
  rewrite H. reflexivity.
Qed.

(** X5: a reply whose content is [None] makes [.strip()] raise
    [AttributeError]: the run ends right after the model call, with nothing
    saved or printed. *)
Theorem none_content_raises (p : program) (fuel : nat) (s s1 : st) :
  llm_call p (S fuel) s = (ROk None, s1) ->
  agent_loop p (S fuel) s =
    (RExn (AttributeError "'NoneType' object has no attribute 'strip'"), s1).
Proof. intros H. rewrite agent_loop_S, agent_step_eq, H. reflexivity. Qed.

(** X6: a reply that is not valid JSON is kept in memory as an assistant
    message (it is saved before decoding), a warning is printed, and the loop
    goes on. *)
Theorem invalid_json_reply_kept (p : program) (raw : string) (s : st) (e : exn) :
  json_loads w (py_strip raw) = Err e ->
  handle_reply p (Some raw) s =
    (ROk Continue,
     mk_st (history s ++ [mk_msg Assistant (py_strip raw)])%list
           (stdout s ++ invalid_json_notice p (py_strip raw))%list (calls s)).
Proof. intros H. unfold_m. rewrite H. reflexivity. Qed.

(** X7: a PLAN step prints its content ([None] when absent), adds nothing to
    memory beyond the saved reply, and the loop goes on. *)
Theorem plan_step_prints_content (p : program) (raw : string) (s : st)
    (kvs : list (string * json)) :
  json_loads w (py_strip raw) = Ok (JObj kvs) ->
  dict_get kvs "step" = JStr "PLAN" ->
  handle_reply p (Some raw) s =
    (ROk Continue,
     mk_st (history s ++ [mk_msg Assistant (py_strip raw)])%list
           (stdout s ++ [EvPlan (dict_get kvs "content")])%list (calls s)).
Proof. intros H Hs. unfold_m. rewrite H. cbn. rewrite Hs. reflexivity. Qed.

(** X8: [get_weather] puts the lowercased city in the request URL but shows
    the city as given; a status other than 200 gives
    "Weather service unavailable". *)
Theorem get_weather_response (c : string) (r : http_response) :
  requests_get w ("https://wttr.in/" ++ py_lower c ++ "?format=%C+%t") = Ok r ->
  get_weather (JStr c) =
    Ok (if (status_code r =? 200)%Z
        then "The weather in " ++ c ++ " is " ++ text r
        else "Weather service unavailable").
Proof.
  intros H. unfold get_weather. cbn [obind]. rewrite H. cbn [obind].
  destruct (status_code r =? 200)%Z; reflexivity.
Qed.

(** X9: a failing request (timeout, connection error, ...) gives
    "Weather API error". *)
Theorem get_weather_request_error (c : string) (e : exn) :
  requests_get w ("https://wttr.in/" ++ py_lower c ++ "?format=%C+%t") = Err e ->
  get_weather (JStr c) = Ok "Weather API error".
Proof. intros H. unfold get_weather. cbn [obind]. rewrite H. reflexivity. Qed.

(** X10: a city that is not a string ([None] when the step has no input)
    gives "Weather API error", whatever the weather service would answer: no
    request is made. *)
Theorem get_weather_non_string (city : json) :
  (forall c, city <> JStr c) -> get_weather city = Ok "Weather API error".
Proof.
  intros H. destruct city; try reflexivity. exfalso. eapply H. reflexivity.
Qed.

(** X11: [run_command] returns the stripped standard output; only when it is
    empty the stripped standard error; "Done." when both are empty; and the
    bare exception text when the command cannot be started. *)
Theorem run_command_output (cmd : json) :
  (forall out err,
     subprocess_run w cmd = Ok (mk_completed out err) ->
     run_command cmd =
       Ok (if String.eqb out ""
           then (if String.eqb err "" then "Done." else py_strip err)
           else py_strip out)) /\
  (forall e, subprocess_run w cmd = Err e -> run_command cmd = Ok (exn_str e)).
Proof.
  split.
  - intros out err H. unfold run_command. rewrite H. simpl.
    destruct (String.eqb out "") eqn:Eo; simpl; [|rewrite Eo; reflexivity].
    reflexivity.
  - intros e H. unfold run_command. rewrite H. reflexivity.
Qed.

(** X12: when the payload decodes to an object with a string "filename" and
    a "content", [write_file] creates the directory, opens the file and
    writes the content.  When that succeeds it reports "<filename> written
    successfully"; when any of it raises (for instance [f.write] with a
    content that is not a [str]) it reports "Write error: " followed by the
    exception text. *)
Theorem write_file_write_outcome (payload f : string) (kvs : list (string * json))
    (content : json) :
  json_loads w payload = Ok (JObj kvs) ->
  obj_get kvs "filename" = Some (JStr f) ->
  obj_get kvs "content" = Some content ->
  (write_text w f content = Ok tt ->
   write_file (JStr payload) = Ok (f ++ " written successfully")) /\
  (forall e, write_text w f content = Err e ->
   write_file (JStr payload) = Ok ("Write error: " ++ exn_str e)).
Proof.
  intros Hl Hf Hc. split; [intros Hw | intros e Hw];
    unfold write_file; simpl; rewrite Hl; simpl; rewrite Hf; simpl; rewrite Hc; simpl;
    rewrite Hw; reflexivity.
Qed.

(** X13: a decoded object without "filename" gives "Write error: 'filename'",
    and one with "filename" but without "content" gives
    "Write error: 'content'"; no file is written in either case. *)
Theorem write_file_missing_key (payload : string) (kvs : list (string * json)) :
  json_loads w payload = Ok (JObj kvs) ->
  (obj_get kvs "filename" = None ->
   write_file (JStr payload) = Ok "Write error: 'filename'") /\
  (forall f, obj_get kvs "filename" = Some f -> obj_get kvs "content" = None ->
   write_file (JStr payload) = Ok "Write error: 'content'").
Proof.
  intros Hl. split.
  - intros Hf. unfold write_file. simpl. rewrite Hl. simpl. rewrite Hf. reflexivity.
  - intros f Hf Hc. unfold write_file. simpl. rewrite Hl. simpl. rewrite Hf. simpl.
    rewrite Hc. reflexivity.
Qed.

(** X14: a payload that is not a string ([None] when the step has no input)
    gives "Write error: the JSON object must be str, bytes or bytearray, not
    <type>"; no file is written. *)
Theorem write_file_non_string (payload : json) :
  (forall s, payload <> JStr s) ->
  write_file payload =
    Ok ("Write error: the JSON object must be str, bytes or bytearray, not "
        ++ py_type_name payload).
Proof.
  intros H. destruct payload; try reflexivity. exfalso. eapply H. reflexivity.
Qed.

(** X15: [read_file] returns the file's text, or "Read error: " followed by
    the exception text when the file cannot be opened or read. *)
Theorem read_file_result (filename : json) :
  (forall t, open_read w filename = Ok t -> read_file filename = Ok t) /\
  (forall e, open_read w filename = Err e ->
   read_file filename = Ok ("Read error: " ++ exn_str e)).
Proof.
  split; intros x H; unfold read_file; rewrite H; reflexivity.
Qed.

(** X16: while the service keeps failing with errors that mention "429",
    [safe_llm_call] never returns and never raises: every attempt it is
    allowed is spent on a request followed by a 5 second sleep. *)
Theorem safe_llm_call_unbounded_retry (fuel : nat) (s : st) :
  (forall i, exists e,
     service w (calls s + i) (history s) = SvcFail e /\
     py_contains "429" (exn_str e) = true) ->
  safe_llm_call fuel s =
    (RNoFuel,
     mk_st (history s)
       (stdout s ++ concat (repeat [EvRateLimitWait; EvSleep 5%Z] fuel))%list
       (calls s + fuel)).
Proof.
  revert s. induction fuel as [|f IH]; intros s Hfail.
  - simpl. rewrite app_nil_r, Nat.add_0_r. destruct s; reflexivity.
  - destruct (Hfail 0%nat) as (e & He & H429). rewrite Nat.add_0_r in He.
    simpl. unfold client_create. rewrite He, H429. unfold bind, emit. simpl.
    rewrite IH; simpl.
    + rewrite <- app_assoc. f_equal. f_equal. lia.
    + intros i. replace (S (calls s + i)) with (calls s + S i) by lia. apply Hfail.
Qed.

Lemma substring_0_length (n : nat) (r : string) :
  (String.length (substring 0 n r) <= n)%nat.
Proof.
  revert n. induction r as [|c r IH]; intros [|n]; simpl; try lia.
  specialize (IH n). lia.
Qed.

Lemma substring_0_prefix (n : nat) (r : string) : String.prefix (substring 0 n r) r = true.
Proof.
  revert n. induction r as [|c r IH]; intros [|n]; simpl; try reflexivity.
  - destruct (ascii_dec c c) as [_|C]; [apply IH | contradiction].
Qed.

Lemma substring_0_short (n : nat) (r : string) :
  (String.length r <= n)%nat -> substring 0 n r = r.
Proof.
  revert n. induction r as [|c r IH]; intros [|n] H; simpl in *; try reflexivity; try lia.
  rewrite IH by lia. reflexivity.
Qed.

(** X17: [cli.py] prints at most the first 600 characters of a tool result
    (all of it when it is shorter), while [app.py] prints the whole result;
    the saved Observation always carries the whole result. *)
Theorem printed_result_truncated (r : string) :
  (String.length (shown_result Cli r) <= 600)%nat /\
  String.prefix (shown_result Cli r) r = true /\
  ((String.length r <= 600)%nat -> shown_result Cli r = r) /\
  shown_result App r = r.
Proof.
  simpl. split; [apply substring_0_length|].
  split; [apply substring_0_prefix|]. split; [apply substring_0_short | reflexivity].
Qed.

Lemma kc_bind {A B} (m : M A) (k : A -> M B) :
  keeps_calls m -> (forall a, keeps_calls (k a)) -> keeps_calls (bind m k).
Proof.
  intros Hm Hk s. unfold bind. specialize (Hm s).
  destruct (m s) as [[a|e|] s1]; simpl in Hm |- *; [rewrite Hk| |]; assumption.
Qed.

Lemma kc_handle_reply (p : program) (c : option string) : keeps_calls (handle_reply p c).
Proof.
  unfold handle_reply.
  repeat first
    [ apply kc_bind; [|intro]
    | match goal with
      | |- keeps_calls (if ?b then _ else _) => destruct b
      | |- keeps_calls (match ?x with _ => _ end) => destruct x
      end
    | intros s; unfold ret, lift, emit, append_msg; simpl;
      repeat match goal with |- context [match ?o with _ => _ end] => destruct o end;
      reflexivity ].
Qed.

Lemma po_bind (P : event -> Prop) {A B} (m : M A) (k : A -> M B) :
  prints_only P m -> (forall a, prints_only P (k a)) -> prints_only P (bind m k).
Proof.
  intros Hm Hk s. unfold bind.
  destruct (Hm s) as (ext1 & H1 & F1).
  destruct (m s) as [[a|e|] s1]; simpl in H1 |- *.
  - destruct (Hk a s1) as (ext2 & H2 & F2). exists (ext1 ++ ext2)%list.
    rewrite H2, H1, app_assoc. split; [reflexivity|]. apply Forall_app. auto.
  - eauto.
  - eauto.
Qed.

Lemma ae_bind {A B} (m : M A) (k : A -> M B) :
  always_ends m -> (forall a, always_ends (k a)) -> always_ends (bind m k).
Proof.
  intros Hm Hk s. unfold bind. specialize (Hm s).
  destruct (m s) as [[a|e|] s1]; simpl in Hm |- *; [apply Hk | discriminate | contradiction].
Qed.

Lemma po_ret (P : event -> Prop) {A} (a : A) : prints_only P (ret a).
Proof. intros s. exists []. rewrite app_nil_r. auto. Qed.

Lemma po_lift (P : event -> Prop) {A} (o : outcome A) : prints_only P (lift o).
Proof. intros s. exists []. destruct o; simpl; rewrite app_nil_r; auto. Qed.

Lemma po_emit (P : event -> Prop) (evs : list event) : Forall P evs -> prints_only P (emit evs).
Proof. intros H s. exists evs. auto. Qed.

Lemma po_append (P : event -> Prop) (m : message) : prints_only P (append_msg m).
Proof. intros s. exists []. simpl. rewrite app_nil_r. auto. Qed.

Lemma ae_ret {A} (a : A) : always_ends (ret a).
Proof. intros s. discriminate. Qed.

Lemma ae_lift {A} (o : outcome A) : always_ends (lift o).
Proof. intros s. destruct o; discriminate. Qed.

Lemma ae_emit (evs : list event) : always_ends (emit evs).
Proof. intros s. discriminate. Qed.

Lemma ae_append (m : message) : always_ends (append_msg m).
Proof. intros s. discriminate. Qed.

(** Handling a reply prints no rate-limit notice and always ends. *)
Lemma handle_reply_prints_no_wait (p : program) (c : option string) :
  prints_only (fun ev => is_wait ev = false) (handle_reply p c) /\
  always_ends (handle_reply p c).
Proof.
  split; unfold handle_reply.
  - repeat first
      [ apply po_ret | apply po_lift | apply po_append
      | apply po_emit; destruct p; repeat constructor
      | apply po_bind; [|intro]
      | match goal with
        | |- prints_only _ (if ?b then _ else _) => destruct b
        | |- prints_only _ (match ?x with _ => _ end) => destruct x
        end ].
  - repeat first
      [ apply ae_ret | apply ae_lift | apply ae_append | apply ae_emit
      | apply ae_bind; [|intro]
      | match goal with
        | |- always_ends (if ?b then _ else _) => destruct b
        | |- always_ends (match ?x with _ => _ end) => destruct x
        end ].
Qed.

Lemma count_waits_app (l1 l2 : list event) :
  count_waits (l1 ++ l2) = (count_waits l1 + count_waits l2)%nat.
Proof. unfold count_waits. rewrite filter_app, length_app. reflexivity. Qed.

Lemma count_waits_none (l : list event) :
  Forall (fun ev => is_wait ev = false) l -> count_waits l = 0%nat.
Proof.
  induction 1 as [|ev l Hev _ IH]; [reflexivity|].
  unfold count_waits in *. simpl. rewrite Hev. exact IH.
Qed.

(** [safe_llm_call] sends one request per rate-limit notice it prints, and
    one more unless it runs out of attempts. *)
Lemma safe_llm_call_count (fuel : nat) (s : st) :
  exists ext,
    stdout (snd (safe_llm_call fuel s)) = (stdout s ++ ext)%list /\
    calls (snd (safe_llm_call fuel s)) =
      (calls s + count_waits ext +
       match fst (safe_llm_call fuel s) with RNoFuel => 0 | _ => 1 end)%nat.
Proof.
  revert s. induction fuel as [|f IH]; intros s.
  - exists []. simpl. rewrite app_nil_r. split; [reflexivity | unfold count_waits; simpl; lia].
  - simpl. unfold client_create.
    destruct (service w (calls s) (history s)) as [c|e]; simpl.
    + exists []. rewrite app_nil_r. simpl. split; [reflexivity | unfold count_waits; simpl; lia].
    + destruct (py_contains "429" (exn_str e)); simpl.
      * unfold bind, emit. simpl.
        set (s1 := mk_st (history s) (stdout s ++ [EvRateLimitWait; EvSleep 5%Z])%list
                         (S (calls s))).
        destruct (IH s1) as (ext & H1 & H2).
        exists ([EvRateLimitWait; EvSleep 5%Z] ++ ext)%list. split.
        -- rewrite H1. subst s1. simpl. rewrite <- app_assoc. reflexivity.
        -- rewrite H2, count_waits_app. subst s1.
           change (count_waits [EvRateLimitWait; EvSleep 5%Z]) with 1%nat. simpl.
           destruct (fst (safe_llm_call f _)); simpl; lia.
      * exists []. rewrite app_nil_r. simpl. split; [reflexivity | unfold count_waits; simpl; lia].
Qed.

(** X18: an iteration of [app.py]'s loop sends exactly one model request.
    An iteration of [cli.py]'s loop sends one request per rate-limit notice
    it prints, plus one for the attempt that got an answer or a failure that
    is not retried (none more when it runs out of attempts).  Handling the
    reply sends none, in both scripts. *)
Theorem requests_per_iteration (fuel : nat) (s : st) :
  calls (snd (agent_step App fuel s)) = S (calls s) /\
  (exists ext,
     stdout (snd (agent_step Cli fuel s)) = (stdout s ++ ext)%list /\
     calls (snd (agent_step Cli fuel s)) =
       (calls s + count_waits ext +
        match fst (agent_step Cli fuel s) with RNoFuel => 0 | _ => 1 end)%nat) /\
  (forall p c s', calls (snd (handle_reply p c s')) = calls s').
Proof.
  split; [|split].
  - rewrite agent_step_eq. simpl. unfold client_create.
    destruct (service w (calls s) (history s)) as [c|e]; simpl; [|reflexivity].
    apply kc_handle_reply.
  - rewrite agent_step_eq. change (llm_call Cli fuel) with (safe_llm_call fuel).
    destruct (safe_llm_call_count fuel s) as (ext1 & H1 & H2).
    destruct (safe_llm_call fuel s) as [[c|e|] s1]; simpl in H1, H2 |- *.
    + destruct (handle_reply_prints_no_wait Cli c) as [Hpo Hae].
      destruct (Hpo s1) as (ext2 & H3 & F3). specialize (Hae s1).
      exists (ext1 ++ ext2)%list. split.
      * rewrite H3, H1, app_assoc. reflexivity.
      * rewrite kc_handle_reply, H2, count_waits_app, (count_waits_none ext2 F3).
        destruct (fst (handle_reply Cli c s1)); [lia | lia | contradiction].
    + exists ext1. split; [exact H1 | exact H2].
    + exists ext1. split; [exact H1 | exact H2].
  - intros p c s'. apply kc_handle_reply.
Qed.

End World.

(** ** Concrete runs *)

(** C1, counterexample: a TOOL step naming an unregistered tool does not
    continue with another model call; the run ends, by a [KeyError], after
    one model call and without any OUTPUT step. *)
Lemma cex_tool_step_ends_run :
  fst (run_agent (demo_world [SvcOk (Some delete_reply)]) App 10 "clean up"
         (init_state App)) = RExn (KeyError (JStr "delete_everything")) /\
  calls (snd (run_agent (demo_world [SvcOk (Some delete_reply)]) App 10 "clean up"
                (init_state App))) = 1%nat.
Proof. vm_compute. split; reflexivity. Qed.

Lemma loop_exits_exactly_on_output_witness :
  fst (handle_reply (demo_world []) App (Some sunny_reply) (init_state App)) = ROk Break.
Proof.
  apply (proj2 (proj1 (loop_exits_exactly_on_output (demo_world []) App)
                  sunny_reply (init_state App))).
  exists [("step", JStr "OUTPUT"); ("content", JStr "It is sunny")].
  split; vm_compute; reflexivity.
Defined.

(** C2, code evaluation: [safe_llm_call] tells a rate limit by the text
    "429" in the exception's message, not by its status.  A status 400
    error whose JSON body mentions "4290 tokens" is retried after the
    rate-limit notice and a 5 second sleep; a status 429 error whose body is
    plain text has that text as its message and is re-raised at once. *)
Theorem rate_limit_detected_by_substring :
  exn_str (make_status_error json_loads_py 400 (jq "{'error': 'prompt has 4290 tokens'}"))
    = "Error code: 400 - {'error': 'prompt has 4290 tokens'}" /\
  safe_llm_call
    (demo_world [SvcFail (make_status_error json_loads_py 400
                            (jq "{'error': 'prompt has 4290 tokens'}"));
                 SvcOk (Some "{}")]) 5 (init_state Cli) =
    (ROk (Some "{}"),
     mk_st (history (init_state Cli)) [EvRateLimitWait; EvSleep 5%Z] 2) /\
  safe_llm_call
    (demo_world [SvcFail (make_status_error json_loads_py 429 "Too Many Requests");
                 SvcOk (Some "{}")]) 5 (init_state Cli) =
    (RExn (APIStatusError 429 "Too Many Requests"),
     mk_st (history (init_state Cli)) [] 1).
Proof. vm_compute. repeat split; reflexivity. Qed.

(** X19: two rate-limit errors, then an answer. *)
Lemma safe_llm_call_policy_witness :
  safe_llm_call (demo_world [SvcFail rate_limit_error; SvcFail rate_limit_error;
                             SvcOk (Some sunny_reply)]) 3 (init_state Cli) =
  (ROk (Some sunny_reply),
   mk_st (history (init_state Cli))
     (stdout (init_state Cli) ++ concat (repeat [EvRateLimitWait; EvSleep 5%Z] 2))%list
     (calls (init_state Cli) + 2 + 1)).
Proof.
  apply (proj1 (safe_llm_call_policy _) 2 3 (init_state Cli) (Some sunny_reply)).
  - lia.
  - intros i Hi. destruct i as [|[|i]]; [| |lia];
      (eexists; split; [vm_compute; reflexivity | vm_compute; reflexivity]).
  - vm_compute. reflexivity.
Defined.

(** C3, code evaluation: a reply that is valid JSON but not an object makes
    [step.get] raise outside the [try]; the exception leaves [run_agent]
    and [main], so the session ends after that single model call, before
    the next input line is read. *)
Theorem non_object_reply_ends_session :
  fst (main (demo_world [SvcOk (Some "[]"); SvcOk (Some sunny_reply)]) Cli 10
         ["make a file"; "again"] (init_state Cli)) =
    RExn (AttributeError "'list' object has no attribute 'get'") /\
  calls (snd (main (demo_world [SvcOk (Some "[]"); SvcOk (Some sunny_reply)]) Cli 10
                ["make a file"; "again"] (init_state Cli))) = 1%nat /\
  fst (main (demo_world [SvcOk (Some "42"); SvcOk (Some sunny_reply)]) App 10
         ["weather in Paris"; "again"] (init_state App)) =
    RExn (AttributeError "'int' object has no attribute 'get'").
Proof. vm_compute. repeat split; reflexivity. Qed.

(** C4, counterexample: replies whose step is unknown or absent raise no
    error; the loop silently asks the model again and then finishes. *)
Lemma cex_unknown_step_not_an_error :
  handle_reply (demo_world []) App (Some foo_reply) (init_state App) =
    (ROk Continue,
     mk_st (history (init_state App) ++ [mk_msg Assistant foo_reply])%list [] 0) /\
  fst (run_agent (demo_world [SvcOk (Some foo_reply); SvcOk (Some no_step_reply);
                              SvcOk (Some sunny_reply)]) App 10 "hi" (init_state App))
    = ROk JNull /\
  calls (snd (run_agent (demo_world [SvcOk (Some foo_reply); SvcOk (Some no_step_reply);
                                     SvcOk (Some sunny_reply)]) App 10 "hi"
                (init_state App))) = 3%nat.
Proof. vm_compute. repeat split; reflexivity. Qed.

Lemma unknown_step_kind_continues_witness :
  handle_reply (demo_world [SvcOk (Some foo_reply)]) App (Some foo_reply)
    (mk_st (history (init_state App)) [] 1) =
    (ROk Continue,
     mk_st (history (init_state App) ++ [mk_msg Assistant (py_strip foo_reply)])%list [] 1) /\
  agent_loop (demo_world [SvcOk (Some foo_reply)]) App 1 (init_state App) =
    agent_loop (demo_world [SvcOk (Some foo_reply)]) App 0
      (mk_st (history (init_state App) ++ [mk_msg Assistant (py_strip foo_reply)])%list [] 1).
Proof.
  apply (unknown_step_kind_continues _ App 0 (init_state App)
           (mk_st (history (init_state App)) [] 1) foo_reply
           [("step", JStr "FOO"); ("content", JStr "x")]);
    vm_compute; reflexivity.
Defined.

(** C5: the unregistered tool of the spec's scenario. *)
Lemma unregistered_tool_aborts_witness :
  exists e s',
    agent_loop (demo_world [SvcOk (Some delete_reply)]) App 1 (init_state App)
      = (RExn e, s') /\
    (e = KeyError (JStr "delete_everything") \/ exists m, e = TypeError m) /\
    history s' = (history (init_state App) ++ [mk_msg Assistant (py_strip delete_reply)])%list.
Proof.
  apply (unregistered_tool_aborts _ App 0 (init_state App)
           (mk_st (history (init_state App)) [] 1) delete_reply
           [("step", JStr "TOOL"); ("tool", JStr "delete_everything"); ("input", JStr "/")]).
  - vm_compute. reflexivity.
  - vm_compute. reflexivity.
  - vm_compute. reflexivity.
  - intros k Hk. vm_compute in Hk. injection Hk as <-. vm_compute. reflexivity.
Defined.

(** C6, counterexample: in the spec's Paris scenario [run_agent] returns
    [None]; the answer "It is sunny" is only printed. *)
Lemma cex_output_content_not_returned :
  fst (run_agent (demo_world paris_replies) App 10 "weather in Paris" (init_state App))
    = ROk JNull /\
  In (EvAnswer (JStr "It is sunny"))
     (stdout (snd (run_agent (demo_world paris_replies) App 10 "weather in Paris"
                     (init_state App)))).
Proof. vm_compute. split; [reflexivity | right; right; right; left; reflexivity]. Qed.

Lemma output_step_printed_run_returns_None_witness :
  agent_loop (demo_world [SvcOk (Some sunny_reply)]) App 1 (init_state App) =
    (ROk tt,
     mk_st (history (init_state App) ++ [mk_msg Assistant (py_strip sunny_reply)])%list
           ([] ++ [EvAnswer (JStr "It is sunny")])%list 1) /\
  (forall q s0 v,
     fst (run_agent (demo_world [SvcOk (Some sunny_reply)]) App 0 q s0) = ROk v -> v = JNull).
Proof.
  apply (output_step_printed_run_returns_None _ App 0 (init_state App)
           (mk_st (history (init_state App)) [] 1) sunny_reply
           [("step", JStr "OUTPUT"); ("content", JStr "It is sunny")]);
    vm_compute; reflexivity.
Defined.

(** C7: the [get_weather] step of the Paris scenario. *)
Lemma tool_step_appends_one_observation_witness :
  exists result out,
    get_weather (demo_world []) (dict_get weather_tool_kvs "input") = Ok result /\
    handle_reply (demo_world []) App (Some weather_tool_reply) (init_state App) =
      (ROk Continue,
       mk_st (history (init_state App) ++
              [mk_msg Assistant (py_strip weather_tool_reply);
               observation_msg (JStr "get_weather") result])%list
             out (calls (init_state App))).
Proof.
  refine (tool_step_appends_one_observation (demo_world []) App weather_tool_reply
            (init_state App) weather_tool_kvs "get_weather" (get_weather (demo_world []))
            _ _ _ _).
  - vm_compute. reflexivity.
  - reflexivity.
  - reflexivity.
  - reflexivity.
Defined.

(** C10: a [read_file] step without an input field. *)
Lemma absent_input_passed_as_None_witness :
  dict_get [("step", JStr "TOOL"); ("tool", JStr "read_file")] "input" = JNull /\
  exists result,
    read_file (demo_world []) JNull = Ok result /\
    handle_reply (demo_world []) Cli (Some read_no_input_reply) (init_state Cli) =
      (ROk Continue,
       mk_st (history (init_state Cli) ++
              [mk_msg Assistant (py_strip read_no_input_reply);
               observation_msg (JStr "read_file") result])%list
             (stdout (init_state Cli) ++ tool_call_notice Cli (JStr "read_file") JNull
                 ++ [EvToolResult (shown_result Cli result)])%list
             (calls (init_state Cli))).
Proof.
  destruct (absent_input_passed_as_None (demo_world []) Cli read_no_input_reply
              (init_state Cli) [("step", JStr "TOOL"); ("tool", JStr "read_file")] "read_file"
              (read_file (demo_world [])))
    as [Hnone Hrun].
  - vm_compute. reflexivity.
  - reflexivity.
  - reflexivity.
  - reflexivity.
  - split; [apply Hnone; reflexivity | exact Hrun].
Defined.

(** X1: an upper-case "EXIT" ends the session at once. *)
Lemma exit_line_ends_session_witness :
  main_loop (demo_world []) Cli 10 ["EXIT"; "ls"] (init_state Cli) =
    (ROk tt, mk_st (history (init_state Cli)) (stdout (init_state Cli) ++ [EvBye])%list
                   (calls (init_state Cli))).
Proof. apply exit_line_ends_session. reflexivity. Defined.


(** X4: a rate limit in [app.py] ends the run. *)
Lemma app_model_error_not_retried_witness :
  agent_loop (demo_world [SvcFail rate_limit_error]) App 3 (init_state App) =
  (RExn rate_limit_error,
   mk_st (history (init_state App)) (stdout (init_state App)) 1).
Proof. apply app_model_error_not_retried. reflexivity. Defined.

(** X5: the scripted service answers [None] once its script is used up. *)
Lemma none_content_raises_witness :
  agent_loop (demo_world []) Cli 1 (init_state Cli) =
    (RExn (AttributeError "'NoneType' object has no attribute 'strip'"),
     mk_st (history (init_state Cli)) (stdout (init_state Cli)) 1).
Proof. apply none_content_raises. reflexivity. Defined.

(** X6: a reply in prose. *)
Lemma invalid_json_reply_kept_witness :
  handle_reply (demo_world []) App (Some " Sure, let me check. ") (init_state App) =
    (ROk Continue,
     mk_st (history (init_state App) ++ [mk_msg Assistant (py_strip " Sure, let me check. ")])%list
           (stdout (init_state App) ++ invalid_json_notice App (py_strip " Sure, let me check. "))%list
           (calls (init_state App))).
Proof.
  apply (invalid_json_reply_kept _ App _ _
           (JSONDecodeError "Expecting value: line 1 column 1 (char 0)")).
  vm_compute. reflexivity.
Defined.

(** X7: the PLAN step of the Paris scenario. *)
Lemma plan_step_prints_content_witness :
  handle_reply (demo_world []) App (Some plan_reply) (init_state App) =
    (ROk Continue,
     mk_st (history (init_state App) ++ [mk_msg Assistant (py_strip plan_reply)])%list
           (stdout (init_state App) ++ [EvPlan (JStr "look up the weather")])%list
           (calls (init_state App))).
Proof.
  apply (plan_step_prints_content _ App _ _
           [("step", JStr "PLAN"); ("content", JStr "look up the weather")]);
    vm_compute; reflexivity.
Defined.

(** X8: "Paris" is requested as "paris" and shown as "Paris". *)
Lemma get_weather_response_witness :
  get_weather (demo_world []) (JStr "Paris") = Ok "The weather in Paris is Sunny +20C".
Proof. apply (get_weather_response _ "Paris" (mk_http 200 "Sunny +20C")). reflexivity. Defined.

(** X9: no network. *)
Lemma get_weather_request_error_witness :
  get_weather busy_world (JStr "Paris") = Ok "Weather API error".
Proof. apply (get_weather_request_error _ "Paris" (OSError "Connection refused")). reflexivity. Defined.

(** X10: a TOOL step without input. *)
Lemma get_weather_non_string_witness :
  get_weather (demo_world []) JNull = Ok "Weather API error".
Proof. apply get_weather_non_string. intros c. discriminate. Defined.

(** X11: no output at all, and output on standard error only. *)
Lemma run_command_output_witness :
  run_command (demo_world []) (JStr "mkdir x") = Ok "Done." /\
  run_command busy_world (JStr "ls x") = Ok "ls: cannot access 'x'".
Proof.
  split.
  - apply (proj1 (run_command_output _ (JStr "mkdir x")) "" ""). reflexivity.
  - refine (eq_trans (proj1 (run_command_output _ (JStr "ls x")) ""
                        ("ls: cannot access 'x'" ++ String (ascii_of_nat 10) "") _) _);
      reflexivity.
Defined.

(** X12: writing [out/a.txt], and a content that is a number. *)
Lemma write_file_write_outcome_witness :
  write_file (demo_world []) (JStr (jq "{'filename': 'out/a.txt', 'content': 'hi'}")) =
    Ok "out/a.txt written successfully" /\
  write_file (demo_world []) (JStr (jq "{'filename': 'out/a.txt', 'content': 5}")) =
    Ok "Write error: write() argument must be str, not int".
Proof.
  split.
  - refine (proj1 (write_file_write_outcome _ _ "out/a.txt"
                     [("filename", JStr "out/a.txt"); ("content", JStr "hi")] (JStr "hi")
                     _ _ _) _);
      vm_compute; reflexivity.
  - refine (proj2 (write_file_write_outcome _ _ "out/a.txt"
                     [("filename", JStr "out/a.txt"); ("content", JNum 5)] (JNum 5)
                     _ _ _) (TypeError "write() argument must be str, not int") _);
      vm_compute; reflexivity.
Defined.

(** X13: a payload without a file name. *)
Lemma write_file_missing_key_witness :
  write_file (demo_world []) (JStr (jq "{'content': 'hi'}")) = Ok "Write error: 'filename'".
Proof.
  refine (proj1 (write_file_missing_key (demo_world []) (jq "{'content': 'hi'}")
                  [("content", JStr "hi")] _) _).
  - vm_compute. reflexivity.
  - reflexivity.
Defined.

(** X14: a TOOL step without input. *)
Lemma write_file_non_string_witness :
  write_file (demo_world []) JNull =
    Ok "Write error: the JSON object must be str, bytes or bytearray, not NoneType".
Proof. apply write_file_non_string. intros s. discriminate. Defined.

(** X15: a missing file and a readable one. *)
Lemma read_file_result_witness :
  read_file (demo_world []) (JStr "notes.txt") =
    Ok "Read error: [Errno 2] No such file or directory" /\
  read_file busy_world (JStr "notes.txt") = Ok "hello".
Proof.
  split.
  - apply (proj2 (read_file_result _ (JStr "notes.txt"))
             (OSError "[Errno 2] No such file or directory")). reflexivity.
  - apply (proj1 (read_file_result _ (JStr "notes.txt"))). reflexivity.
Defined.

(** X16: three attempts against a service that is always rate limited. *)
Lemma safe_llm_call_unbounded_retry_witness :
  safe_llm_call busy_world 3 (init_state Cli) =
    (RNoFuel,
     mk_st (history (init_state Cli))
       (stdout (init_state Cli) ++ concat (repeat [EvRateLimitWait; EvSleep 5%Z] 3))%list
       (calls (init_state Cli) + 3)).
Proof.
  apply safe_llm_call_unbounded_retry. intros i.
  exists rate_limit_error. split; [reflexivity | vm_compute; reflexivity].
Defined.

(** X17: a short result is printed whole by [cli.py]. *)
Lemma printed_result_truncated_witness : shown_result Cli "Done." = "Done.".
Proof. apply (proj1 (proj2 (proj2 (printed_result_truncated "Done.")))). simpl. lia. Defined.
